(** * sleeper.c: the ptrace-restriction test fixture

    A shallow embedding of
    [client/site_tests/security_ptraceRestrictions/src/sleeper.c].

    [main] is a straight-line program over five library calls
    ([fprintf], [getpid], [kill], [prctl], [sleep]) and one pure library
    function ([atoi]).  The calls are kept as the nodes of a small
    command tree, so that what [main] asks of the platform, in which
    order, and what it does with each answer can all be read off the
    tree; a handler over an explicit process state then runs the tree. *)

From Stdlib Require Import ZArith String Ascii List Bool Lia.
From ExtLib Require Import Structures.Monad.
Import ListNotations.
Import MonadNotation.
Local Open Scope Z_scope.
Local Open Scope monad_scope.

(** ** C integer types (LP64: 32-bit [int], 64-bit [long]) *)

Module CInt.

Definition INT_MIN : Z := - 2 ^ 31.
Definition INT_MAX : Z := 2 ^ 31 - 1.
Definition UINT_MAX : Z := 2 ^ 32 - 1.
Definition LONG_MIN : Z := - 2 ^ 63.
Definition LONG_MAX : Z := 2 ^ 63 - 1.

(** Conversion to [int]: the value is reduced modulo 2^32 into
    [INT_MIN .. INT_MAX]. *)
Definition to_int (v : Z) : Z := (v + 2 ^ 31) mod 2 ^ 32 - 2 ^ 31.

(** Conversion to [unsigned int]: the value is reduced modulo 2^32. *)
Definition to_unsigned (v : Z) : Z := v mod 2 ^ 32.

Definition in_int (v : Z) : Prop := INT_MIN <= v <= INT_MAX.

End CInt.

(** ** The C library's text functions *)

Module Libc.

(** A [char *]: [None] is the null pointer. *)
Definition cstr := option string.

Definition isspace (c : ascii) : bool :=
  let n := nat_of_ascii c in
  (Nat.eqb n 32 || (Nat.leb 9 n && Nat.leb n 13))%bool.

Definition digit_of (c : ascii) : option Z :=
  let n := Z.of_nat (nat_of_ascii c) in
  if ((48 <=? n) && (n <=? 57))%bool then Some (n - 48) else None.

Fixpoint skip_space (s : string) : string :=
  match s with
  | String c s' => if isspace c then skip_space s' else s
  | EmptyString => s
  end.

(** The optional sign: [(negative, rest)]. *)
Definition take_sign (s : string) : bool * string :=
  match s with
  | String "-"%char r => (true, r)
  | String "+"%char r => (false, r)
  | _ => (false, s)
  end.

(** The value of the longest prefix of decimal digits, [acc] being the
    value read so far. *)
Fixpoint digits (acc : Z) (s : string) : Z :=
  match s with
  | String c s' =>
      match digit_of c with
      | Some d => digits (acc * 10 + d) s'
      | None => acc
      end
  | EmptyString => acc
  end.

Definition clamp (lo hi v : Z) : Z := Z.max lo (Z.min hi v).

(** [strtol(s, NULL, 10)]: white space, an optional sign, decimal
    digits; a value out of the range of [long] is replaced by the
    nearest bound. *)
Definition strtol10 (s : string) : Z :=
  let (neg, r) := take_sign (skip_space s) in
  let v := digits 0 r in
  clamp CInt.LONG_MIN CInt.LONG_MAX (if neg then - v else v).

(** [atoi(s)] is [(int) strtol(s, NULL, 10)]. *)
Definition atoi (s : string) : Z := CInt.to_int (strtol10 s).

(** Text on which [atoi] can perform no conversion: after the white
    space and the sign there is no digit. *)
Definition non_numeric (s : string) : bool :=
  match snd (take_sign (skip_space s)) with
  | String c _ => match digit_of c with Some _ => false | None => true end
  | EmptyString => true
  end.

(** The [%s] conversion; a null pointer is printed as [(null)]. *)
Definition show_s (a : cstr) : string :=
  match a with
  | Some s => s
  | None => "(null)"%string
  end.

(** [printf]-style formatting, for the conversions the program uses:
    each [%s] consumes one argument, every other character is copied. *)
Fixpoint format (fmt : string) (args : list cstr) : string :=
  match fmt with
  | String "%"%char (String "s"%char rest) =>
      match args with
      | a :: args' => (show_s a ++ format rest args')%string
      | [] => format rest []
      end
  | String c rest => String c (format rest args)
  | EmptyString => EmptyString
  end.

End Libc.

(** ** Library calls and command trees *)

Inductive stream : Type := stdout | stderr.

(** The calls [main] makes.  Every one of them returns an integer. *)
Inductive call : Type :=
| Fprintf (f : stream) (fmt : string) (args : list Libc.cstr)
| Getpid
| Kill (pid sig : Z)
| Prctl (option arg2 arg3 arg4 arg5 : Z)
| Sleep (seconds : Z).

(** A program returning an [A]: it returns, or makes a call and goes on
    with the call's result, or has undefined behaviour. *)
Inductive Prog (A : Type) : Type :=
| Ret (a : A)
| Do (c : call) (k : Z -> Prog A)
| Undefined.

Arguments Ret {A} a.
Arguments Do {A} c k.
Arguments Undefined {A}.

Fixpoint pbind {A B : Type} (p : Prog A) (f : A -> Prog B) : Prog B :=
  match p with
  | Ret a => f a
  | Do c k => Do c (fun r => pbind (k r) f)
  | Undefined => Undefined
  end.

#[global] Instance Monad_Prog : Monad Prog :=
  {| ret := @Ret; bind := @pbind |}.

Definition do_call (c : call) : Prog Z := Do c Ret.

(** A call made for its effect only: the result is dropped. *)
Definition discard (c : call) : Prog unit := Do c (fun _ => Ret tt).

(** ** The program *)

Definition PR_SET_PTRACER : Z := 0x59616d61.
Definition SIGINT : Z := 2.

(** [argv[i]]; [argv[argc]] is the null pointer. *)
Definition arg (argv : list string) (i : nat) : Libc.cstr := nth_error argv i.

(** [atoi(argv[i])]; undefined on the null pointer. *)
Definition atoi_arg (argv : list string) (i : nat) : Prog Z :=
  match arg argv i with
  | Some s => ret (Libc.atoi s)
  | None => Undefined
  end.

Definition newline : string := String (ascii_of_nat 10) EmptyString.

Definition usage_fmt : string :=
  ("Usage: %s TRACER_PID SLEEP_SECONDS" ++ newline)%string.

(** [argc]: the program name and the positional arguments. *)
Definition argc (argv : list string) : Z := Z.of_nat (length argv).

Definition main (argv : list string) : Prog Z :=
  if argc argv <? 3 then
    discard (Fprintf stderr usage_fmt [arg argv 0]) ;;
    self <- do_call Getpid ;;
    discard (Kill self SIGINT) ;;
    ret 1
  else
    pid <- atoi_arg argv 1 ;;
    (if negb (pid =? -1)
     then discard (Prctl PR_SET_PTRACER pid 0 0 0)
     else ret tt) ;;
    secs <- atoi_arg argv 2 ;;
    discard (Sleep (CInt.to_unsigned secs)) ;;
    ret 0.

(** ** The platform

    The process state the five calls read and change, together with the
    two answers of the platform that the program cannot predict: whether
    [prctl] is refused, and whether a signal handler cuts [sleep] short.
    [handle] and [run] describe the run in which every call returns to
    [main]: [kill] records the signal as sent and answers, and [status] is
    the value [main] returns.  What a signal sent to the process itself
    does to it, and a stream that cannot be written, belong to the
    environment of the process: [execute], further down, runs the same
    command tree in an environment [Env] and tells how the process
    ends. *)

Record World : Type := mkWorld {
  self_pid : Z;                 (* the process's identifier *)
  out : string;                 (* written to the output stream *)
  err : string;                 (* written to the error stream *)
  ptracer : option Z;           (* the declared tracer, if any *)
  sent : list (Z * Z);          (* signals sent: (target, signal) *)
  asleep : Z;                   (* seconds spent in sleep *)
  prctl_refused : bool;         (* the platform refuses prctl *)
  wake : option Z               (* a handler runs after that many seconds of sleep *)
}.

Definition write (f : stream) (text : string) (w : World) : World :=
  match f with
  | stdout => mkWorld (self_pid w) (out w ++ text) (err w) (ptracer w)
                (sent w) (asleep w) (prctl_refused w) (wake w)
  | stderr => mkWorld (self_pid w) (out w) (err w ++ text) (ptracer w)
                (sent w) (asleep w) (prctl_refused w) (wake w)
  end.

Definition send (pid sig : Z) (w : World) : World :=
  mkWorld (self_pid w) (out w) (err w) (ptracer w)
    (sent w ++ [(pid, sig)]) (asleep w) (prctl_refused w) (wake w).

Definition set_ptracer (t : option Z) (w : World) : World :=
  mkWorld (self_pid w) (out w) (err w) t
    (sent w) (asleep w) (prctl_refused w) (wake w).

Definition pass_time (t : Z) (w : World) : World :=
  mkWorld (self_pid w) (out w) (err w) (ptracer w)
    (sent w) (asleep w + t) (prctl_refused w) (wake w).

Definition with_prctl_refused (b : bool) (w : World) : World :=
  mkWorld (self_pid w) (out w) (err w) (ptracer w)
    (sent w) (asleep w) b (wake w).

Definition with_wake (t : option Z) (w : World) : World :=
  mkWorld (self_pid w) (out w) (err w) (ptracer w)
    (sent w) (asleep w) (prctl_refused w) t.

(** The seconds a [sleep(n)] really lasts in [w]. *)
Definition slept (n : Z) (w : World) : Z :=
  match wake w with
  | Some t => if ((0 <=? t) && (t <? n))%bool then t else n
  | None => n
  end.

(** What each call answers and how it changes the process state.
    - [fprintf] appends the formatted text and answers its length;
    - [kill] reaches the process itself only (no other process is
      modelled) and answers 0, or -1 for another target;
    - [prctl(PR_SET_PTRACER, p, ...)] replaces the declared tracer ([0]
      withdraws it) and answers 0, or changes nothing and answers -1
      when the platform refuses; any other option is refused;
    - [sleep(n)] answers the seconds left unslept. *)
Definition handle (c : call) (w : World) : Z * World :=
  match c with
  | Fprintf f fmt args =>
      let text := Libc.format fmt args in
      (Z.of_nat (String.length text), write f text w)
  | Getpid => (self_pid w, w)
  | Kill pid sig =>
      if pid =? self_pid w then (0, send pid sig w) else (-1, w)
  | Prctl option arg2 _ _ _ =>
      if ((option =? PR_SET_PTRACER) && negb (prctl_refused w))%bool
      then (0, set_ptracer (if arg2 =? 0 then None else Some arg2) w)
      else (-1, w)
  | Sleep n =>
      let t := slept n w in (n - t, pass_time t w)
  end.

(** One observed step: the call and its answer. *)
Definition event : Type := call * Z.

Record Run (A : Type) : Type := mkRun {
  trace : list event;           (* the calls made, in order *)
  status : option A;            (* the returned value; [None]: undefined behaviour *)
  final : World
}.

Arguments mkRun {A} trace status final.
Arguments trace {A} r.
Arguments status {A} r.
Arguments final {A} r.

Fixpoint run {A : Type} (p : Prog A) (w : World) : Run A :=
  match p with
  | Ret a => mkRun [] (Some a) w
  | Do c k =>
      let (r, w') := handle c w in
      let rest := run (k r) w' in
      mkRun ((c, r) :: trace rest) (status rest) (final rest)
  | Undefined => mkRun [] None w
  end.

(** The process state in which each call of [p] is made. *)
Fixpoint snapshots {A : Type} (p : Prog A) (w : World) : list (call * World) :=
  match p with
  | Do c k => (c, w) :: snapshots (k (fst (handle c w))) (snd (handle c w))
  | Ret _ | Undefined => []
  end.

(** The calls of a run, without their answers. *)
Definition calls {A : Type} (r : Run A) : list call := map fst (trace r).

Definition is_prctl (c : call) : bool :=
  match c with Prctl _ _ _ _ _ => true | _ => false end.

Definition is_fprintf (c : call) : bool :=
  match c with Fprintf _ _ _ => true | _ => false end.

Definition is_kill (c : call) : bool :=
  match c with Kill _ _ => true | _ => false end.

Definition is_sleep (c : call) : bool :=
  match c with Sleep _ => true | _ => false end.

(** [a] occurs in [l] strictly before [b]. *)
Definition before {T : Type} (a b : T) (l : list T) : Prop :=
  exists l1 l2 l3, l = l1 ++ a :: l2 ++ b :: l3.

(** The usage line for a program name. *)
Definition usage_line (prog : string) : string :=
  ("Usage: " ++ prog ++ " TRACER_PID SLEEP_SECONDS" ++ newline)%string.

Definition demo_world : World :=
  mkWorld 4242 EmptyString EmptyString None [] 0 false None.

(** The sleep that ends the success path. *)
Definition nap (secs : Z) : Prog Z :=
  Do (Sleep (CInt.to_unsigned secs)) (fun _ => Ret 0).

(** The answer of [prctl(PR_SET_PTRACER, ...)] in [w]. *)
Definition prctl_answer (w : World) : Z :=
  if prctl_refused w then -1 else 0.

(** The process state after [prctl(PR_SET_PTRACER, pid, ...)] in [w]. *)
Definition after_prctl (pid : Z) (w : World) : World :=
  snd (handle (Prctl PR_SET_PTRACER pid 0 0 0) w).

(** The calls of [p] and its returned value when the platform's answers
    are the sequence [answers]: the first call is answered [answers 0],
    the next one [answers 1], and so on.  No process state is involved, so
    any platform at all is one such sequence. *)
Fixpoint replay {A : Type} (answers : nat -> Z) (p : Prog A)
  : list call * option A :=
  match p with
  | Ret a => ([], Some a)
  | Do c k =>
      let rest := replay (fun i => answers (S i)) (k (answers 0%nat)) in
      (c :: fst rest, snd rest)
  | Undefined => ([], None)
  end.

(** The answers that the platform gave in a run. *)
Definition answers_of {A : Type} (r : Run A) : nat -> Z :=
  fun i => nth i (map snd (trace r)) 0.

(** The calls [main] makes for [argv] when its process identifier is
    [self], as the two paths of the source list them. *)
Definition expected_calls (argv : list string) (self : Z) : list call :=
  if argc argv <? 3 then
    [Fprintf stderr usage_fmt [arg argv 0]; Getpid; Kill self SIGINT]
  else
    match arg argv 1, arg argv 2 with
    | Some a1, Some a2 =>
        (if Libc.atoi a1 =? -1 then []
         else [Prctl PR_SET_PTRACER (Libc.atoi a1) 0 0 0])
        ++ [Sleep (CInt.to_unsigned (Libc.atoi a2))]
    | _, _ => []
    end.

(** ** The environment of the process

    The program installs no signal handler, so what a signal it sends to
    itself does is decided by what it was started with: the signal's
    disposition (default or ignored), the signal mask, and a debugger
    that may withhold the signal.  [fatal sig] tells whether [sig], sent
    by the process to itself, ends it; [writable f] whether text can be
    written to stream [f]. *)

Record Env : Type := mkEnv {
  fatal : Z -> bool;
  writable : stream -> bool
}.

(** The signals whose default action does not end a process: the null
    signal 0, SIGCHLD (17), SIGCONT (18), the stop signals SIGSTOP (19),
    SIGTSTP (20), SIGTTIN (21), SIGTTOU (22), and SIGURG (23) and
    SIGWINCH (28).  The default action of the other standard signals,
    SIGINT among them, ends it. *)
Definition default_fatal (sig : Z) : bool :=
  ((1 <=? sig) && (sig <=? 31) &&
   negb (((17 <=? sig) && (sig <=? 23)) || (sig =? 28)))%bool.

(** A process started with default dispositions, nothing blocked, no
    debugger, and writable streams. *)
Definition default_env : Env := mkEnv default_fatal (fun _ => true).

(** A process started with every signal ignored or blocked. *)
Definition shielded_env : Env := mkEnv (fun _ => false) (fun _ => true).

(** A process started with every signal ignored or blocked and with
    streams that cannot be written (closed, or on a full device). *)
Definition mute_env : Env := mkEnv (fun _ => false) (fun _ => false).

(** How a process ends: [exit] with a status, by a signal, or in
    undefined behaviour. *)
Inductive Ending : Type :=
| Exited (code : Z)
| Killed (sig : Z)
| Faulted.

(** The answer of a call that returns, in environment [e]: [fprintf] to a
    stream that cannot be written answers -1 and writes nothing; any
    other call is answered as in [handle]. *)
Definition react (e : Env) (c : call) (w : World) : Z * World :=
  match c with
  | Fprintf f _ _ => if writable e f then handle c w else (-1, w)
  | _ => handle c w
  end.

(** The signal by which call [c] ends the process, if it does: a [kill]
    whose target is the process itself and whose signal is fatal. *)
Definition dies (e : Env) (c : call) (w : World) : option Z :=
  match c with
  | Kill pid sig =>
      if ((pid =? self_pid w) && fatal e sig)%bool then Some sig else None
  | _ => None
  end.

Record Life : Type := mkLife {
  made : list call;             (* the calls made, in order *)
  ending : Ending;              (* how the process ended *)
  world : World                 (* the process state at its end *)
}.

(** The life of the process that runs [p] in environment [e]: a call that
    ends the process is the last one made, and the rest of [p] is never
    reached. *)
Fixpoint execute (e : Env) (p : Prog Z) (w : World) : Life :=
  match p with
  | Ret a => mkLife [] (Exited a) w
  | Do c k =>
      match dies e c w with
      | Some sig => mkLife [c] (Killed sig) (snd (handle c w))
      | None =>
          let (r, w') := react e c w in
          let rest := execute e (k r) w' in
          mkLife (c :: made rest) (ending rest) (world rest)
      end
  | Undefined => mkLife [] Faulted w
  end.

(** The ending of a run in which every call returned. *)
Definition ending_of (st : option Z) : Ending :=
  match st with
  | Some a => Exited a
  | None => Faulted
  end.

(** * Properties *)

(** ** The library functions *)

Lemma to_int_range (v : Z) : CInt.in_int (CInt.to_int v).
Proof.
  unfold CInt.in_int, CInt.to_int, CInt.INT_MIN, CInt.INT_MAX.
  pose proof (Z.mod_pos_bound (v + 2 ^ 31) (2 ^ 32) ltac:(lia)). lia.
Qed.

Lemma atoi_range (s : string) : CInt.in_int (Libc.atoi s).
Proof. apply to_int_range. Qed.

Lemma to_unsigned_nonneg (v : Z) :
  0 <= v <= CInt.INT_MAX -> CInt.to_unsigned v = v.
Proof.
  unfold CInt.to_unsigned, CInt.INT_MAX. intros H.
  apply Z.mod_small. lia.
Qed.

Lemma to_unsigned_negative (v : Z) :
  CInt.INT_MIN <= v < 0 -> CInt.to_unsigned v = v + 2 ^ 32.
Proof.
  unfold CInt.to_unsigned, CInt.INT_MIN. intros H.
  symmetry. apply (Z.mod_unique_pos v (2 ^ 32) (-1)); lia.
Qed.

Lemma digits_no_digit (acc : Z) (s : string) :
  match s with
  | String c _ => Libc.digit_of c = None
  | EmptyString => True
  end ->
  Libc.digits acc s = acc.
Proof.
  destruct s as [|c s']; simpl; [reflexivity|].
  intros ->. reflexivity.
Qed.

Lemma atoi_non_numeric (s : string) :
  Libc.non_numeric s = true -> Libc.atoi s = 0.
Proof.
  unfold Libc.non_numeric, Libc.atoi, Libc.strtol10.
  destruct (Libc.take_sign (Libc.skip_space s)) as [neg r]. simpl.
  intros H. rewrite digits_no_digit.
  - destruct neg; reflexivity.
  - destruct r as [|c r']; [exact I|].
    destruct (Libc.digit_of c); [discriminate | reflexivity].
Qed.

Lemma format_usage (a : Libc.cstr) :
  Libc.format usage_fmt [a] =
  ("Usage: " ++ Libc.show_s a ++ " TRACER_PID SLEEP_SECONDS" ++ newline)%string.
Proof.
  reflexivity.
Qed.

(** ** The two paths of [main] *)

Lemma arg_defined (argv : list string) (i : nat) :
  Z.of_nat i < argc argv -> exists s, arg argv i = Some s.
Proof.
  unfold argc, arg. intros H.
  destruct (nth_error argv i) as [s|] eqn:E.
  - exists s. reflexivity.
  - apply nth_error_None in E. lia.
Qed.

(** With fewer than two positional arguments [main] is the usage path. *)
Lemma main_usage (argv : list string) :
  argc argv < 3 ->
  main argv =
  Do (Fprintf stderr usage_fmt [arg argv 0]) (fun _ =>
  Do Getpid (fun self =>
  Do (Kill self SIGINT) (fun _ => Ret 1))).
Proof.
  intros H. unfold main.
  destruct (Z.ltb_spec (argc argv) 3) as [_|Hge]; [reflexivity | lia].
Qed.

(** With two positional arguments or more [main] is the optional tracer
    declaration followed by the sleep. *)
Lemma main_work (argv : list string) (a1 a2 : string) :
  3 <= argc argv ->
  arg argv 1 = Some a1 ->
  arg argv 2 = Some a2 ->
  main argv =
  if Libc.atoi a1 =? -1
  then nap (Libc.atoi a2)
  else Do (Prctl PR_SET_PTRACER (Libc.atoi a1) 0 0 0)
         (fun _ => nap (Libc.atoi a2)).
Proof.
  intros H H1 H2. unfold main, atoi_arg.
  destruct (Z.ltb_spec (argc argv) 3) as [Hlt|_]; [lia|].
  rewrite H1, H2. cbn.
  destruct (Libc.atoi a1 =? -1); reflexivity.
Qed.

Lemma run_usage (argv : list string) (w : World) :
  argc argv < 3 ->
  let text := Libc.format usage_fmt [arg argv 0] in
  run (main argv) w =
  mkRun [ (Fprintf stderr usage_fmt [arg argv 0], Z.of_nat (String.length text));
          (Getpid, self_pid w);
          (Kill (self_pid w) SIGINT, 0) ]
        (Some 1)
        (send (self_pid w) SIGINT (write stderr text w)).
Proof.
  intros H text. rewrite (main_usage argv H).
  cbn -[Libc.format usage_fmt]. rewrite Z.eqb_refl. reflexivity.
Qed.

Lemma handle_prctl (pid : Z) (w : World) :
  handle (Prctl PR_SET_PTRACER pid 0 0 0) w =
  (prctl_answer w, after_prctl pid w).
Proof.
  unfold after_prctl, prctl_answer. cbn.
  destruct (prctl_refused w); reflexivity.
Qed.

Lemma run_work_declared (argv : list string) (a1 a2 : string) (w : World) :
  3 <= argc argv ->
  arg argv 1 = Some a1 ->
  arg argv 2 = Some a2 ->
  Libc.atoi a1 <> -1 ->
  let n := CInt.to_unsigned (Libc.atoi a2) in
  let w1 := after_prctl (Libc.atoi a1) w in
  run (main argv) w =
  mkRun [ (Prctl PR_SET_PTRACER (Libc.atoi a1) 0 0 0, prctl_answer w);
          (Sleep n, n - slept n w1) ]
        (Some 0)
        (pass_time (slept n w1) w1).
Proof.
  intros H H1 H2 Hp n w1. rewrite (main_work argv a1 a2 H H1 H2).
  destruct (Z.eqb_spec (Libc.atoi a1) (-1)) as [E|_]; [contradiction|].
  change (run (Do ?c ?k) w) with
    (let (r, w') := handle c w in
     let rest := run (k r) w' in
     mkRun ((c, r) :: trace rest) (status rest) (final rest)).
  rewrite handle_prctl. reflexivity.
Qed.

Lemma run_work_undeclared (argv : list string) (a1 a2 : string) (w : World) :
  3 <= argc argv ->
  arg argv 1 = Some a1 ->
  arg argv 2 = Some a2 ->
  Libc.atoi a1 = -1 ->
  let n := CInt.to_unsigned (Libc.atoi a2) in
  run (main argv) w =
  mkRun [(Sleep n, n - slept n w)] (Some 0) (pass_time (slept n w) w).
Proof.
  intros H H1 H2 Hp n. rewrite (main_work argv a1 a2 H H1 H2), Hp.
  reflexivity.
Qed.

(** ** The usage path *)

(** The life of the process on the usage path, in any environment. *)
Lemma execute_usage (argv : list string) (e : Env) (w : World) :
  argc argv < 3 ->
  execute e (main argv) w =
  mkLife [Fprintf stderr usage_fmt [arg argv 0]; Getpid;
          Kill (self_pid w) SIGINT]
         (if fatal e SIGINT then Killed SIGINT else Exited 1)
         (send (self_pid w) SIGINT
            (if writable e stderr
             then write stderr (Libc.format usage_fmt [arg argv 0]) w
             else w)).
Proof.
  intros H. rewrite (main_usage argv H).
  cbn -[Libc.format usage_fmt].
  destruct (writable e stderr); cbn -[Libc.format usage_fmt];
    rewrite Z.eqb_refl; cbn -[Libc.format usage_fmt];
    destruct (fatal e SIGINT); reflexivity.
Qed.

(** C1 as worded fails on the code: started with SIGINT at its default action
    and fewer than two positional arguments, the process is ended by the
    SIGINT it sends to itself and never exits with status 1; and started
    with an error stream that cannot be written, it exits with status 1
    without any usage line written. *)
Lemma usage_error_not_always_exit_1 :
  argc ["sleeper"%string] < 3 /\
  made (execute default_env (main ["sleeper"%string]) demo_world) =
    [Fprintf stderr usage_fmt [Some "sleeper"%string]; Getpid;
     Kill 4242 SIGINT] /\
  ending (execute default_env (main ["sleeper"%string]) demo_world) =
    Killed SIGINT /\
  ending (execute default_env (main ["sleeper"%string]) demo_world) <>
    Exited 1 /\
  ending (execute mute_env (main ["sleeper"%string]) demo_world) =
    Exited 1 /\
  err (world (execute mute_env (main ["sleeper"%string]) demo_world)) =
    err demo_world.
Proof.
  split; [reflexivity|].
  split; [reflexivity|].
  split; [reflexivity|].
  split; [discriminate|].
  split; reflexivity.
Qed.

(** C1, amended: with fewer than two positional arguments ([argc < 3]) the
    program calls [fprintf] on the error stream with the usage format and
    [argv[0]], asks for its own process identifier and sends SIGINT to it,
    and makes no other call.  When the error stream can be written, the
    usage line, which names the program and the two expected arguments,
    is added to it; nothing is written to the output stream.  When the
    signal does not end the process (SIGINT ignored, blocked, or withheld
    by a debugger) [main] returns and the process exits with status 1;
    when it does (the default action), the process is ended by SIGINT at
    the [kill]. *)
Theorem usage_error_ending (argv : list string) (e : Env) (w : World) :
  argc argv < 3 ->
  let l := execute e (main argv) w in
  made l = [Fprintf stderr usage_fmt [arg argv 0]; Getpid;
            Kill (self_pid w) SIGINT] /\
  (writable e stderr = true ->
     err (world l) = (err w ++ usage_line (Libc.show_s (arg argv 0)))%string) /\
  (forall prog rest, argv = prog :: rest -> writable e stderr = true ->
     err (world l) = (err w ++ usage_line prog)%string) /\
  out (world l) = out w /\
  sent (world l) = sent w ++ [(self_pid w, SIGINT)] /\
  (fatal e SIGINT = false -> ending l = Exited 1) /\
  (fatal e SIGINT = true -> ending l = Killed SIGINT).
Proof.
  intros H l. subst l. rewrite (execute_usage argv e w H).
  rewrite format_usage. fold (usage_line (Libc.show_s (arg argv 0))).
  cbn [made ending world].
  split; [reflexivity|].
  split; [intros ->; reflexivity|].
  split; [intros prog rest -> ->; reflexivity|].
  split; [destruct (writable e stderr); reflexivity|].
  split; [destruct (writable e stderr); reflexivity|].
  split; intros ->; reflexivity.
Qed.

Lemma usage_error_ending_witness :
  argc ["sleeper"%string] < 3 /\
  err (world (execute shielded_env (main ["sleeper"%string]) demo_world)) =
    usage_line "sleeper" /\
  ending (execute shielded_env (main ["sleeper"%string]) demo_world) =
    Exited 1.
Proof.
  assert (H : argc ["sleeper"%string] < 3) by reflexivity.
  pose proof (usage_error_ending ["sleeper"%string] shielded_env demo_world H)
    as T.
  cbn zeta in T. destruct T as (_ & He & _ & _ & _ & Hx & _).
  split; [exact H|].
  split; [exact (He eq_refl) | exact (Hx eq_refl)].
Defined.

(** C6: on the usage path the order is fixed: the usage line is written
    before SIGINT is sent, no call that sends a signal comes before a call
    that writes, the signal is the last call before the program returns,
    and when the signal is sent the error stream already holds the usage
    line while no signal has been sent yet. *)
Theorem usage_then_signal_then_exit (argv : list string) (w : World) :
  argc argv < 3 ->
  let r := run (main argv) w in
  let say := Fprintf stderr usage_fmt [arg argv 0] in
  let sig := Kill (self_pid w) SIGINT in
  before say sig (calls r) /\
  (forall k p, is_kill k = true -> is_fprintf p = true ->
     ~ before k p (calls r)) /\
  (exists pre, calls r = pre ++ [sig]) /\
  (forall k w', is_kill k = true -> In (k, w') (snapshots (main argv) w) ->
     err w' = (err w ++ usage_line (Libc.show_s (arg argv 0)))%string /\
     sent w' = sent w) /\
  status r = Some 1.
Proof.
  intros H r say sig. subst r say sig.
  rewrite (run_usage argv w H). unfold calls. cbn [trace map fst status].
  split; [|split; [|split; [|split]]].
  - exists [], [Getpid], []. reflexivity.
  - intros k p Hk Hp (l1 & l2 & l3 & E).
    destruct l1 as [|x1 l1]; cbn in E; injection E as E1 E.
    + subst k. discriminate Hk.
    + destruct l1 as [|x2 l1]; cbn in E; injection E as E2 E.
      * subst k. discriminate Hk.
      * destruct l1 as [|x3 l1]; cbn in E; injection E as E3 E.
        -- destruct l2; discriminate E.
        -- destruct l1; discriminate E.
  - exists [Fprintf stderr usage_fmt [arg argv 0]; Getpid]. reflexivity.
  - intros k w' Hk Hin. rewrite (main_usage argv H) in Hin.
    cbn -[Libc.format usage_fmt] in Hin.
    destruct Hin as [E|[E|[E|[]]]]; injection E as <- <-;
      try discriminate Hk.
    split; reflexivity.
  - reflexivity.
Qed.

Lemma usage_then_signal_then_exit_witness :
  argc [] < 3 /\
  before (Fprintf stderr usage_fmt [None]) (Kill 4242 SIGINT)
    (calls (run (main []) demo_world)).
Proof.
  split; [reflexivity|].
  apply (usage_then_signal_then_exit [] demo_world). reflexivity.
Defined.

(** ** The success path *)

Lemma slept_after_prctl (n pid : Z) (w : World) :
  slept n (after_prctl pid w) = slept n w.
Proof.
  unfold after_prctl, slept. cbn.
  destruct (prctl_refused w); reflexivity.
Qed.

Lemma streams_after_prctl (pid : Z) (w : World) :
  let w' := after_prctl pid w in
  out w' = out w /\ err w' = err w /\ sent w' = sent w /\ asleep w' = asleep w.
Proof.
  unfold after_prctl. cbn.
  destruct (prctl_refused w); repeat split.
Qed.

Lemma after_prctl_refusal (pid : Z) (b : bool) (w : World) :
  let w' := after_prctl pid (with_prctl_refused b w) in
  wake w' = wake w /\ asleep w' = asleep w.
Proof.
  unfold after_prctl. cbn. destruct b; repeat split.
Qed.

Section Success.

Variable argv : list string.
Variable w : World.
Hypothesis enough : 3 <= argc argv.

Lemma both_arguments :
  exists a1 a2, arg argv 1 = Some a1 /\ arg argv 2 = Some a2.
Proof.
  destruct (arg_defined argv 1) as [a1 H1]; [cbn; lia|].
  destruct (arg_defined argv 2) as [a2 H2]; [cbn; lia|].
  exists a1, a2. split; assumption.
Qed.

(** The shape of every run of the success path: an optional [prctl],
    then the [sleep], then 0. *)
Lemma run_work (a1 a2 : string) :
  arg argv 1 = Some a1 ->
  arg argv 2 = Some a2 ->
  let n := CInt.to_unsigned (Libc.atoi a2) in
  exists pre w1,
    (pre = [] /\ w1 = w /\ Libc.atoi a1 = -1 \/
     pre = [(Prctl PR_SET_PTRACER (Libc.atoi a1) 0 0 0, prctl_answer w)] /\
     w1 = after_prctl (Libc.atoi a1) w /\ Libc.atoi a1 <> -1) /\
    run (main argv) w =
    mkRun (pre ++ [(Sleep n, n - slept n w)]) (Some 0)
          (pass_time (slept n w) w1).
Proof.
  intros H1 H2 n.
  destruct (Z.eq_dec (Libc.atoi a1) (-1)) as [E|E].
  - exists [], w. split; [left; auto|].
    apply (run_work_undeclared argv a1 a2 w enough H1 H2 E).
  - exists [(Prctl PR_SET_PTRACER (Libc.atoi a1) 0 0 0, prctl_answer w)],
      (after_prctl (Libc.atoi a1) w).
    split; [right; auto|].
    rewrite (run_work_declared argv a1 a2 w enough H1 H2 E).
    rewrite slept_after_prctl. reflexivity.
Qed.

(** C5: with two positional arguments or more the program returns 0,
    whatever the text of the arguments; text that is not a number is
    read as 0 and opens no error path. *)
Theorem exit_zero_any_text :
  status (run (main argv) w) = Some 0 /\
  (forall s, Libc.non_numeric s = true -> Libc.atoi s = 0).
Proof.
  split; [|exact atoi_non_numeric].
  destruct both_arguments as (a1 & a2 & H1 & H2).
  destruct (run_work a1 a2 H1 H2) as (pre & w1 & _ & ->).
  reflexivity.
Qed.

(** C7: on the success path nothing is written to the output stream or
    to the error stream and no signal is sent; the only calls made are
    the tracer declaration and the sleep. *)
Theorem success_path_silent :
  let r := run (main argv) w in
  out (final r) = out w /\
  err (final r) = err w /\
  sent (final r) = sent w /\
  (forall c, In c (calls r) -> (is_prctl c || is_sleep c)%bool = true) /\
  (forall c, In c (calls r) -> is_fprintf c = false).
Proof.
  destruct both_arguments as (a1 & a2 & H1 & H2).
  destruct (run_work a1 a2 H1 H2) as (pre & w1 & Hpre & E).
  cbn zeta. rewrite E. unfold calls. cbn [final trace out err sent pass_time].
  destruct Hpre as [(-> & -> & _) | (-> & -> & _)].
  - repeat split; intros c [<-|[]]; reflexivity.
  - destruct (streams_after_prctl (Libc.atoi a1) w) as (Ho & He & Hs & _).
    repeat split; try assumption; intros c [<-|[<-|[]]]; reflexivity.
Qed.

End Success.

Lemma exit_zero_any_text_witness :
  3 <= argc ["sleeper"; "tracer"; "a while"; "-x"]%string /\
  status (run (main ["sleeper"; "tracer"; "a while"; "-x"]%string) demo_world)
    = Some 0.
Proof.
  split; [cbn; lia|].
  apply (exit_zero_any_text
           ["sleeper"; "tracer"; "a while"; "-x"]%string demo_world).
  cbn; lia.
Defined.

Lemma success_path_silent_witness :
  3 <= argc ["sleeper"; "77"; "5"]%string /\
  err (final (run (main ["sleeper"; "77"; "5"]%string) demo_world)) =
    EmptyString.
Proof.
  split; [cbn; lia|].
  apply (success_path_silent ["sleeper"; "77"; "5"]%string demo_world).
  cbn; lia.
Defined.

(** ** The tracer declaration *)

Lemma slept_refusal (n : Z) (b : bool) (w : World) :
  slept n (with_prctl_refused b w) = slept n w.
Proof. reflexivity. Qed.

(** C2: with two positional arguments or more and a first argument that
    does not parse to -1, [prctl(PR_SET_PTRACER, pid, 0, 0, 0)] is called
    exactly once, with the parsed first argument; what the call answers is
    not looked at: the rest of the program does not depend on the answer,
    and whether the platform accepts or refuses the call, the same calls
    follow, the same time is slept and 0 is returned. *)
Theorem tracer_declared_once_result_ignored
    (argv : list string) (a1 : string) (w : World) :
  3 <= argc argv ->
  arg argv 1 = Some a1 ->
  Libc.atoi a1 <> -1 ->
  let decl := Prctl PR_SET_PTRACER (Libc.atoi a1) 0 0 0 in
  filter is_prctl (calls (run (main argv) w)) = [decl] /\
  (exists rest : Prog Z, main argv = Do decl (fun _ => rest)) /\
  (forall b : bool,
     let r := run (main argv) (with_prctl_refused b w) in
     (exists rest, trace r = (decl, if b then -1 else 0) :: rest) /\
     calls r = calls (run (main argv) w) /\
     asleep (final r) = asleep (final (run (main argv) w)) /\
     status r = Some 0).
Proof.
  intros H H1 Hp decl. subst decl.
  destruct (arg_defined argv 2) as [a2 H2]; [cbn; lia|].
  split; [|split].
  - rewrite (run_work_declared argv a1 a2 w H H1 H2 Hp). reflexivity.
  - exists (nap (Libc.atoi a2)).
    rewrite (main_work argv a1 a2 H H1 H2).
    destruct (Z.eqb_spec (Libc.atoi a1) (-1)); [contradiction | reflexivity].
  - intros b r. subst r.
    rewrite (run_work_declared argv a1 a2 w H H1 H2 Hp).
    rewrite (run_work_declared argv a1 a2 _ H H1 H2 Hp).
    unfold calls. cbn [trace map fst final status asleep pass_time].
    rewrite !slept_after_prctl, slept_refusal.
    destruct (after_prctl_refusal (Libc.atoi a1) b w) as (_ & ->).
    destruct (streams_after_prctl (Libc.atoi a1) w) as (_ & _ & _ & ->).
    repeat split.
    eexists. unfold prctl_answer. cbn. reflexivity.
Qed.

Lemma tracer_declared_once_result_ignored_witness :
  (3 <= argc ["sleeper"; "1234"; "10"]%string /\
   arg ["sleeper"; "1234"; "10"]%string 1 = Some "1234"%string /\
   Libc.atoi "1234" <> -1) /\
  filter is_prctl
    (calls (run (main ["sleeper"; "1234"; "10"]%string) demo_world)) =
  [Prctl PR_SET_PTRACER 1234 0 0 0].
Proof.
  assert (Hw : 3 <= argc ["sleeper"; "1234"; "10"]%string /\
               arg ["sleeper"; "1234"; "10"]%string 1 = Some "1234"%string /\
               Libc.atoi "1234" <> -1).
  { split; [cbn; lia|]. split; [reflexivity|]. vm_compute. discriminate. }
  split; [exact Hw|].
  destruct Hw as (H & H1 & Hp).
  exact (proj1 (tracer_declared_once_result_ignored
                  ["sleeper"; "1234"; "10"]%string "1234" demo_world H H1 Hp)).
Defined.

(** C4: with two positional arguments or more and a first argument that
    parses to exactly -1, [prctl] is not called at all and the declared
    tracer of the process is left as it was. *)
Theorem no_tracer_for_minus_one
    (argv : list string) (a1 : string) (w : World) :
  3 <= argc argv ->
  arg argv 1 = Some a1 ->
  Libc.atoi a1 = -1 ->
  let r := run (main argv) w in
  (forall c, In c (calls r) -> is_prctl c = false) /\
  (forall c w', In (c, w') (snapshots (main argv) w) ->
     ptracer w' = ptracer w) /\
  ptracer (final r) = ptracer w.
Proof.
  intros H H1 Hp r. subst r.
  destruct (arg_defined argv 2) as [a2 H2]; [cbn; lia|].
  rewrite (run_work_undeclared argv a1 a2 w H H1 H2 Hp).
  rewrite (main_work argv a1 a2 H H1 H2), Hp.
  unfold calls. cbn. repeat split.
  - intros c [<-|[]]. reflexivity.
  - intros c w' [E|[]]. injection E as _ <-. reflexivity.
Qed.

Lemma no_tracer_for_minus_one_witness :
  (3 <= argc ["sleeper"; "-1"; "0"]%string /\
   arg ["sleeper"; "-1"; "0"]%string 1 = Some "-1"%string /\
   Libc.atoi "-1" = -1) /\
  ptracer (final (run (main ["sleeper"; "-1"; "0"]%string)
                    (set_ptracer (Some 99) demo_world))) = Some 99.
Proof.
  assert (Hw : 3 <= argc ["sleeper"; "-1"; "0"]%string /\
               arg ["sleeper"; "-1"; "0"]%string 1 = Some "-1"%string /\
               Libc.atoi "-1" = -1).
  { split; [cbn; lia|]. split; reflexivity. }
  split; [exact Hw|].
  destruct Hw as (H & H1 & Hp).
  apply (no_tracer_for_minus_one ["sleeper"; "-1"; "0"]%string "-1"
           (set_ptracer (Some 99) demo_world) H H1 Hp).
Defined.

(** C8: a first positional argument that is not a number is read as 0, and
    0 is not the sentinel -1: the tracer declaration is not skipped, the
    program's first call is [prctl(PR_SET_PTRACER, 0, 0, 0, 0)]. *)
Theorem non_numeric_tracer_is_pid_zero
    (argv : list string) (a1 : string) (w : World) :
  3 <= argc argv ->
  arg argv 1 = Some a1 ->
  Libc.non_numeric a1 = true ->
  Libc.atoi a1 = 0 /\
  exists rest,
    calls (run (main argv) w) = Prctl PR_SET_PTRACER 0 0 0 0 :: rest /\
    forall c, In c rest -> is_prctl c = false.
Proof.
  intros H H1 Hn.
  pose proof (atoi_non_numeric a1 Hn) as E0.
  split; [exact E0|].
  destruct (arg_defined argv 2) as [a2 H2]; [cbn; lia|].
  assert (Hp : Libc.atoi a1 <> -1) by lia.
  rewrite (run_work_declared argv a1 a2 w H H1 H2 Hp), E0.
  eexists. split; [reflexivity|].
  intros c [<-|[]]. reflexivity.
Qed.

Lemma non_numeric_tracer_is_pid_zero_witness :
  (3 <= argc ["sleeper"; "nobody"; "1"]%string /\
   arg ["sleeper"; "nobody"; "1"]%string 1 = Some "nobody"%string /\
   Libc.non_numeric "nobody" = true) /\
  Libc.atoi "nobody" = 0.
Proof.
  assert (Hw : 3 <= argc ["sleeper"; "nobody"; "1"]%string /\
               arg ["sleeper"; "nobody"; "1"]%string 1 = Some "nobody"%string /\
               Libc.non_numeric "nobody" = true).
  { split; [cbn; lia|]. split; reflexivity. }
  split; [exact Hw|].
  destruct Hw as (H & H1 & Hn).
  exact (proj1 (non_numeric_tracer_is_pid_zero
                  ["sleeper"; "nobody"; "1"]%string "nobody" demo_world
                  H H1 Hn)).
Defined.

(** ** The sleep *)

(** C3: with two positional arguments or more, after the optional tracer
    declaration the program's last call is [sleep], asked for the parsed
    second argument (as an [unsigned int], which is that very number when
    it is not negative); the process sleeps that long unless a handler
    wakes it earlier, and in either case the program then returns 0. *)
Theorem sleeps_then_exits_zero
    (argv : list string) (a2 : string) (w : World) :
  3 <= argc argv ->
  arg argv 2 = Some a2 ->
  let n := CInt.to_unsigned (Libc.atoi a2) in
  let r := run (main argv) w in
  (exists pre, calls r = pre ++ [Sleep n] /\ forallb is_prctl pre = true) /\
  (0 <= Libc.atoi a2 -> n = Libc.atoi a2) /\
  asleep (final r) = asleep w + slept n w /\
  (wake w = None -> asleep (final r) = asleep w + n) /\
  (forall t, status (run (main argv) (with_wake t w)) = Some 0) /\
  status r = Some 0.
Proof.
  intros H H2 n r. subst r.
  destruct (arg_defined argv 1) as [a1 H1]; [cbn; lia|].
  assert (Hshape : forall w0,
    exists pre w1,
      forallb is_prctl (map fst pre) = true /\ asleep w1 = asleep w0 /\
      run (main argv) w0 =
      mkRun (pre ++ [(Sleep n, n - slept n w0)]) (Some 0)
            (pass_time (slept n w0) w1)).
  { intros w0.
    destruct (run_work argv w0 H a1 a2 H1 H2) as (pre & w1 & Hpre & E).
    exists pre, w1. split; [|split; [|exact E]].
    - destruct Hpre as [(-> & _) | (-> & _)]; reflexivity.
    - destruct Hpre as [(_ & -> & _) | (_ & -> & _)]; [reflexivity|].
      apply (streams_after_prctl (Libc.atoi a1) w0). }
  destruct (Hshape w) as (pre & w1 & Hpre & Hz & E). rewrite E.
  unfold calls. cbn [trace final status asleep pass_time].
  split; [|split; [|split; [|split; [|split]]]].
  - exists (map fst pre). rewrite map_app. split; [reflexivity | exact Hpre].
  - intros Hpos. apply to_unsigned_nonneg.
    pose proof (atoi_range a2) as [_ Hmax]. lia.
  - rewrite Hz. reflexivity.
  - intros Hw. rewrite Hz. unfold slept. rewrite Hw. reflexivity.
  - intros t. destruct (Hshape (with_wake t w)) as (? & ? & _ & _ & ->).
    reflexivity.
  - reflexivity.
Qed.

Lemma sleeps_then_exits_zero_witness :
  (3 <= argc ["sleeper"; "1234"; "30"]%string /\
   arg ["sleeper"; "1234"; "30"]%string 2 = Some "30"%string) /\
  asleep (final (run (main ["sleeper"; "1234"; "30"]%string)
                   (with_wake (Some 12) demo_world))) = 12 /\
  status (run (main ["sleeper"; "1234"; "30"]%string)
            (with_wake (Some 12) demo_world)) = Some 0.
Proof.
  assert (Hw : 3 <= argc ["sleeper"; "1234"; "30"]%string /\
               arg ["sleeper"; "1234"; "30"]%string 2 = Some "30"%string).
  { split; [cbn; lia | reflexivity]. }
  split; [exact Hw|].
  destruct Hw as (H & H2).
  pose proof (sleeps_then_exits_zero ["sleeper"; "1234"; "30"]%string "30"
                (with_wake (Some 12) demo_world) H H2) as T.
  cbn zeta in T. destruct T as (_ & _ & Ha & _ & _ & Hs).
  split; [exact Ha | exact Hs].
Defined.

(** C9: a second positional argument that parses to a negative number is
    neither rejected nor replaced by 0: it is converted to the unsigned
    parameter of [sleep] modulo 2^32, so the program asks to sleep for
    2^32 seconds more than the number, at least 2^31 seconds (for -1:
    4294967295), and returns 0 afterwards as usual. *)
Theorem negative_sleep_wraps
    (argv : list string) (a2 : string) (w : World) :
  3 <= argc argv ->
  arg argv 2 = Some a2 ->
  Libc.atoi a2 < 0 ->
  let r := run (main argv) w in
  In (Sleep (Libc.atoi a2 + 2 ^ 32)) (calls r) /\
  (forall n, In (Sleep n) (calls r) -> n = Libc.atoi a2 + 2 ^ 32) /\
  2 ^ 31 <= Libc.atoi a2 + 2 ^ 32 <= CInt.UINT_MAX /\
  (Libc.atoi a2 = -1 -> In (Sleep 4294967295) (calls r)) /\
  status r = Some 0.
Proof.
  intros H H2 Hneg r. subst r.
  destruct (arg_defined argv 1) as [a1 H1]; [cbn; lia|].
  pose proof (atoi_range a2) as [Hmin _].
  assert (Hn : CInt.to_unsigned (Libc.atoi a2) = Libc.atoi a2 + 2 ^ 32)
    by (apply to_unsigned_negative; lia).
  destruct (run_work argv w H a1 a2 H1 H2) as (pre & w1 & Hpre & E).
  rewrite E, Hn. unfold calls. cbn [trace status].
  rewrite map_app. cbn [map fst].
  assert (Hin : In (Sleep (Libc.atoi a2 + 2 ^ 32))
                  (map fst pre ++ [Sleep (Libc.atoi a2 + 2 ^ 32)])).
  { apply in_or_app. right. left. reflexivity. }
  split; [exact Hin|]. split; [|split; [|split]].
  - intros n Hs. apply in_app_or in Hs. destruct Hs as [Hs|[Hs|[]]].
    + destruct Hpre as [(-> & _) | (-> & _)]; cbn in Hs.
      * destruct Hs.
      * destruct Hs as [Hs|[]]. discriminate Hs.
    + injection Hs as <-. reflexivity.
  - unfold CInt.INT_MIN, CInt.UINT_MAX in *. lia.
  - intros E1. rewrite E1 in Hin |- *. exact Hin.
  - reflexivity.
Qed.

Lemma negative_sleep_wraps_witness :
  (3 <= argc ["sleeper"; "-1"; "-1"]%string /\
   arg ["sleeper"; "-1"; "-1"]%string 2 = Some "-1"%string /\
   Libc.atoi "-1" < 0) /\
  In (Sleep 4294967295)
    (calls (run (main ["sleeper"; "-1"; "-1"]%string) demo_world)).
Proof.
  assert (Hw : 3 <= argc ["sleeper"; "-1"; "-1"]%string /\
               arg ["sleeper"; "-1"; "-1"]%string 2 = Some "-1"%string /\
               Libc.atoi "-1" < 0).
  { split; [cbn; lia|]. split; reflexivity. }
  split; [exact Hw|].
  destruct Hw as (H & H2 & Hneg).
  exact (proj1 (negative_sleep_wraps ["sleeper"; "-1"; "-1"]%string "-1"
                  demo_world H H2 Hneg)).
Defined.

(** ** Arguments beyond the second *)

(** C10: two invocations with two positional arguments or more that agree
    on the first two of them are the same program, whatever further
    arguments they carry: the same calls with the same answers, the same
    final process state and the same returned value. *)
Theorem extra_arguments_unread (argv argv' : list string) (w : World) :
  3 <= argc argv ->
  3 <= argc argv' ->
  arg argv 1 = arg argv' 1 ->
  arg argv 2 = arg argv' 2 ->
  main argv = main argv' /\
  run (main argv) w = run (main argv') w /\
  filter is_prctl (calls (run (main argv) w)) =
    filter is_prctl (calls (run (main argv') w)) /\
  filter is_sleep (calls (run (main argv) w)) =
    filter is_sleep (calls (run (main argv') w)) /\
  status (run (main argv) w) = status (run (main argv') w).
Proof.
  intros H H' E1 E2.
  assert (E : main argv = main argv').
  { destruct (both_arguments argv H) as (a1 & a2 & H1 & H2).
    rewrite (main_work argv a1 a2 H H1 H2).
    rewrite (main_work argv' a1 a2 H'); congruence. }
  rewrite E. repeat split.
Qed.

Lemma extra_arguments_unread_witness :
  (3 <= argc ["sleeper"; "7"; "2"]%string /\
   3 <= argc ["sleeper"; "7"; "2"; "-1"; "900"]%string) /\
  run (main ["sleeper"; "7"; "2"]%string) demo_world =
  run (main ["sleeper"; "7"; "2"; "-1"; "900"]%string) demo_world.
Proof.
  assert (Hw : 3 <= argc ["sleeper"; "7"; "2"]%string /\
               3 <= argc ["sleeper"; "7"; "2"; "-1"; "900"]%string).
  { split; cbn; lia. }
  split; [exact Hw|].
  destruct Hw as (H & H').
  apply (extra_arguments_unread
           ["sleeper"; "7"; "2"]%string
           ["sleeper"; "7"; "2"; "-1"; "900"]%string
           demo_world H H' eq_refl eq_refl).
Defined.

(** * Further properties of [main] *)

(** ** Runs against any sequence of answers *)

(** A run in a process state is the replay of the answers it received. *)
Lemma run_replay {A : Type} (p : Prog A) (w : World) :
  replay (answers_of (run p w)) p = (calls (run p w), status (run p w)).
Proof.
  revert w. induction p as [a | c k IH | ]; intros w; try reflexivity.
  unfold calls in *. cbn [run]. destruct (handle c w) as [r w'].
  cbn [replay trace status map fst snd].
  change (answers_of _ 0%nat) with r.
  change (fun i : nat => answers_of
            {| trace := (c, r) :: trace (run (k r) w');
               status := status (run (k r) w');
               final := final (run (k r) w') |} (S i))
    with (answers_of (run (k r) w')).
  rewrite IH. reflexivity.
Qed.

Lemma replay_usage (argv : list string) (answers : nat -> Z) :
  argc argv < 3 ->
  replay answers (main argv) =
  ([Fprintf stderr usage_fmt [arg argv 0]; Getpid;
    Kill (answers 1%nat) SIGINT], Some 1).
Proof.
  intros H. rewrite (main_usage argv H). reflexivity.
Qed.

Lemma replay_work (argv : list string) (answers : nat -> Z) :
  3 <= argc argv ->
  replay answers (main argv) = (expected_calls argv 0, Some 0).
Proof.
  intros H. unfold expected_calls.
  destruct (arg_defined argv 1) as [a1 H1]; [cbn; lia|].
  destruct (arg_defined argv 2) as [a2 H2]; [cbn; lia|].
  rewrite (main_work argv a1 a2 H H1 H2), H1, H2.
  destruct (Z.ltb_spec (argc argv) 3) as [Hlt|_]; [lia|].
  destruct (Libc.atoi a1 =? -1); reflexivity.
Qed.

(** The calls and the returned value of every run, by path. *)
Lemma run_calls (argv : list string) (w : World) :
  calls (run (main argv) w) = expected_calls argv (self_pid w) /\
  status (run (main argv) w) = Some (if argc argv <? 3 then 1 else 0).
Proof.
  unfold expected_calls.
  destruct (Z.ltb_spec (argc argv) 3) as [Hlt|Hge].
  - rewrite (run_usage argv w Hlt). split; reflexivity.
  - destruct (arg_defined argv 1) as [a1 H1]; [cbn; lia|].
    destruct (arg_defined argv 2) as [a2 H2]; [cbn; lia|].
    rewrite H1, H2.
    destruct (Z.eqb_spec (Libc.atoi a1) (-1)) as [E|E].
    + rewrite (run_work_undeclared argv a1 a2 w Hge H1 H2 E).
      split; reflexivity.
    + rewrite (run_work_declared argv a1 a2 w Hge H1 H2 E).
      split; reflexivity.
Qed.

Lemma append_same (s t : string) : (s ++ t)%string = s -> t = EmptyString.
Proof.
  induction s as [|c s IH]; cbn; intros E; [exact E|].
  injection E as E. exact (IH E).
Qed.

Lemma usage_text_not_empty (a : Libc.cstr) :
  Libc.format usage_fmt [a] <> EmptyString.
Proof. rewrite format_usage. discriminate. Qed.

(** ** How the process ends *)

(** In an environment where no signal is fatal and the streams can be
    written, the life of the process is the run in which every call
    returns. *)
Lemma execute_shielded (p : Prog Z) (w : World) :
  execute shielded_env p w =
  mkLife (calls (run p w)) (ending_of (status (run p w))) (final (run p w)).
Proof.
  revert w. induction p as [a | c k IH | ]; intros w; try reflexivity.
  assert (Hd : dies shielded_env c w = None).
  { destruct c; try reflexivity. cbn. rewrite andb_false_r. reflexivity. }
  assert (Hr : react shielded_env c w = handle c w).
  { destruct c; reflexivity. }
  unfold calls in *. cbn [execute run]. rewrite Hd, Hr.
  destruct (handle c w) as [r w']. rewrite IH. reflexivity.
Qed.

(** With two positional arguments or more the environment plays no part:
    no call of the path writes or sends a signal. *)
Lemma execute_work (argv : list string) (e : Env) (w : World) :
  3 <= argc argv ->
  execute e (main argv) w =
  mkLife (calls (run (main argv) w)) (Exited 0) (final (run (main argv) w)).
Proof.
  intros H.
  destruct (arg_defined argv 1) as [a1 H1]; [cbn; lia|].
  destruct (arg_defined argv 2) as [a2 H2]; [cbn; lia|].
  destruct (Z.eq_dec (Libc.atoi a1) (-1)) as [E|E].
  - rewrite (run_work_undeclared argv a1 a2 w H H1 H2 E).
    rewrite (main_work argv a1 a2 H H1 H2), E. reflexivity.
  - rewrite (run_work_declared argv a1 a2 w H H1 H2 E).
    rewrite (main_work argv a1 a2 H H1 H2).
    destruct (Z.eqb_spec (Libc.atoi a1) (-1)) as [E'|_]; [contradiction|].
    unfold after_prctl, prctl_answer, nap. cbn.
    destruct (prctl_refused w); reflexivity.
Qed.

Lemma work_streams (argv : list string) (w : World) :
  3 <= argc argv ->
  let r := run (main argv) w in
  out (final r) = out w /\ err (final r) = err w /\ sent (final r) = sent w.
Proof.
  intros H.
  destruct (arg_defined argv 1) as [a1 H1]; [cbn; lia|].
  destruct (arg_defined argv 2) as [a2 H2]; [cbn; lia|].
  destruct (run_work argv w H a1 a2 H1 H2) as (pre & w1 & Hpre & E).
  cbn zeta. rewrite E. cbn [final pass_time out err sent].
  destruct Hpre as [(_ & -> & _) | (_ & -> & _)]; [repeat split|].
  destruct (streams_after_prctl (Libc.atoi a1) w) as (Ho & He & Hs & _).
  repeat split; assumption.
Qed.

(** X1: how the process ends is decided by the argument count and, with
    fewer than two positional arguments, by whether the SIGINT it sends
    to itself is fatal: with two positional arguments or more it exits
    with status 0 in every environment and every process state, and it
    exits with status 0 only then; with fewer it is ended by SIGINT when
    that is fatal and exits with status 1 otherwise.  [atoi] is never
    handed an entry of [argv] past its end. *)
Theorem ending_by_argc (argv : list string) (e : Env) (w : World) :
  ending (execute e (main argv) w) =
    (if argc argv <? 3
     then if fatal e SIGINT then Killed SIGINT else Exited 1
     else Exited 0) /\
  (ending (execute e (main argv) w) = Exited 0 <-> 3 <= argc argv) /\
  ending (execute e (main argv) w) <> Faulted.
Proof.
  destruct (Z.ltb_spec (argc argv) 3) as [Hlt|Hge].
  - rewrite (execute_usage argv e w Hlt). cbn [ending].
    destruct (fatal e SIGINT); repeat split;
      try discriminate; intros; lia.
  - rewrite (execute_work argv e w Hge). cbn [ending].
    repeat split; try discriminate; auto.
Qed.

(** X2: in every environment the process exits with status 0 exactly
    when it has sent no signal, and then it has written to neither
    stream; when the error stream can be written, it is left as it was
    exactly when the process exits with status 0. *)
Theorem exit_zero_iff_quiet (argv : list string) (e : Env) (w : World) :
  let l := execute e (main argv) w in
  (ending l = Exited 0 <-> sent (world l) = sent w) /\
  (ending l = Exited 0 -> err (world l) = err w /\ out (world l) = out w) /\
  (writable e stderr = true ->
     (err (world l) = err w <-> ending l = Exited 0)).
Proof.
  cbn zeta. destruct (Z.ltb_spec (argc argv) 3) as [Hlt|Hge].
  - rewrite (execute_usage argv e w Hlt). cbn [ending world].
    assert (Hx : (if fatal e SIGINT then Killed SIGINT else Exited 1)
                 <> Exited 0)
      by (destruct (fatal e SIGINT); discriminate).
    assert (Hs : forall w0, sent (send (self_pid w) SIGINT w0) <> sent w0).
    { intros w0 E. cbn in E. rewrite <- (app_nil_r (sent w0)) in E at 2.
      apply app_inv_head in E. discriminate E. }
    split; [|split].
    + split; [intros E; contradiction|].
      intros E. exfalso.
      destruct (writable e stderr); exact (Hs _ E).
    + intros E. contradiction.
    + intros ->. cbn [send write err].
      split; [|intros E; contradiction].
      intros E. apply append_same in E.
      exfalso. exact (usage_text_not_empty _ E).
  - rewrite (execute_work argv e w Hge). cbn [ending world].
    destruct (work_streams argv w Hge) as (Ho & He & Hs).
    repeat split; auto.
Qed.

(** ** What the platform's answers can change *)

(** X3: the only answer of the platform that [main] uses is its own
    process identifier, on the usage path: two sequences of answers that
    agree there lead to the same calls and the same returned value, and
    with two positional arguments or more no answer matters at all (not
    that of [prctl], nor the seconds [sleep] reports as left). *)
Theorem answers_unused
    (argv : list string) (answers answers' : nat -> Z) :
  (argc argv < 3 -> answers 1%nat = answers' 1%nat) ->
  replay answers (main argv) = replay answers' (main argv).
Proof.
  intros H. destruct (Z.ltb_spec (argc argv) 3) as [Hlt|Hge].
  - rewrite !(replay_usage argv _ Hlt), (H Hlt). reflexivity.
  - rewrite !(replay_work argv _ Hge). reflexivity.
Qed.

Lemma answers_unused_witness :
  replay (fun _ => 7) (main ["sleeper"%string]) =
  replay (fun i => if Nat.eqb i 1 then 7 else -1) (main ["sleeper"%string]).
Proof.
  apply (answers_unused ["sleeper"%string]
           (fun _ => 7) (fun i => if Nat.eqb i 1 then 7 else -1)).
  intros _. reflexivity.
Defined.

(** ** What the program never asks for *)

(** X4: the program never signals another process: every [kill] of every
    run has the process's own identifier as its target and SIGINT as its
    signal, and occurs only with fewer than two positional arguments. *)
Theorem signal_only_to_self
    (argv : list string) (w : World) (pid sig : Z) :
  In (Kill pid sig) (calls (run (main argv) w)) ->
  pid = self_pid w /\ sig = SIGINT /\ argc argv < 3.
Proof.
  destruct (run_calls argv w) as [-> _]. unfold expected_calls.
  destruct (Z.ltb_spec (argc argv) 3) as [Hlt|Hge].
  - intros [E|[E|[E|[]]]]; try discriminate E.
    injection E as <- <-. auto.
  - destruct (arg argv 1) as [a1|]; [|intros []].
    destruct (arg argv 2) as [a2|]; [|intros []].
    destruct (Libc.atoi a1 =? -1); cbn.
    + intros [E|[]]. discriminate E.
    + intros [E|[E|[]]]; discriminate E.
Qed.

Lemma signal_only_to_self_witness :
  In (Kill 4242 2) (calls (run (main ["sleeper"; "-1"]%string) demo_world)) /\
  4242 = self_pid demo_world.
Proof.
  assert (Hin : In (Kill 4242 2)
                  (calls (run (main ["sleeper"; "-1"]%string) demo_world))).
  { right. right. left. reflexivity. }
  split; [exact Hin|].
  exact (proj1 (signal_only_to_self ["sleeper"; "-1"]%string demo_world
                  4242 2 Hin)).
Defined.

(** X5: every [prctl] of every run is a tracer declaration of the source's
    shape: the option is PR_SET_PTRACER, the last three arguments are 0,
    and the tracer is the parsed first argument, an [int] that is never
    -1; so the program cannot declare the value that stands for any
    tracer.  It occurs only with two positional arguments or more. *)
Theorem tracer_never_minus_one
    (argv : list string) (w : World) (option a2 a3 a4 a5 : Z) :
  In (Prctl option a2 a3 a4 a5) (calls (run (main argv) w)) ->
  option = PR_SET_PTRACER /\
  (a3, a4, a5) = (0, 0, 0) /\
  a2 <> -1 /\
  CInt.in_int a2 /\
  (exists a1, arg argv 1 = Some a1 /\ a2 = Libc.atoi a1) /\
  3 <= argc argv.
Proof.
  destruct (run_calls argv w) as [-> _]. unfold expected_calls.
  destruct (Z.ltb_spec (argc argv) 3) as [Hlt|Hge].
  - intros [E|[E|[E|[]]]]; discriminate E.
  - destruct (arg argv 1) as [a1|]; [|intros []].
    destruct (arg argv 2) as [a2'|]; [|intros []].
    destruct (Z.eqb_spec (Libc.atoi a1) (-1)) as [E1|E1]; cbn.
    + intros [E|[]]. discriminate E.
    + intros [E|[E|[]]]; [|discriminate E].
      injection E as <- <- <- <- <-.
      repeat split; auto; try apply atoi_range.
      exists a1. split; reflexivity.
Qed.

Lemma tracer_never_minus_one_witness :
  In (Prctl PR_SET_PTRACER 0 0 0 0)
    (calls (run (main ["sleeper"; "-x"; "3"]%string) demo_world)) /\
  (0 : Z) <> -1.
Proof.
  assert (Hin : In (Prctl PR_SET_PTRACER 0 0 0 0)
                  (calls (run (main ["sleeper"; "-x"; "3"]%string)
                            demo_world))).
  { left. reflexivity. }
  split; [exact Hin|].
  apply (tracer_never_minus_one ["sleeper"; "-x"; "3"]%string demo_world
           PR_SET_PTRACER 0 0 0 0 Hin).
Defined.

(** ** The usage path, further *)

(** X6: with fewer than two positional arguments the program neither
    declares a tracer nor sleeps: no call of the run is a [prctl] or a
    [sleep], and the declared tracer and the time slept are as before. *)
Theorem usage_path_declares_nothing (argv : list string) (w : World) :
  argc argv < 3 ->
  let r := run (main argv) w in
  (forall c, In c (calls r) -> is_prctl c = false /\ is_sleep c = false) /\
  ptracer (final r) = ptracer w /\
  asleep (final r) = asleep w /\
  length (calls r) = 3%nat.
Proof.
  intros H r. subst r. rewrite (run_usage argv w H). unfold calls.
  cbn [trace map fst final send write ptracer asleep length].
  split; [|repeat split].
  intros c [<-|[<-|[<-|[]]]]; split; reflexivity.
Qed.

Lemma usage_path_declares_nothing_witness :
  argc ["sleeper"; "1234"]%string < 3 /\
  ptracer (final (run (main ["sleeper"; "1234"]%string) demo_world)) = None.
Proof.
  split; [reflexivity|].
  apply (usage_path_declares_nothing ["sleeper"; "1234"]%string demo_world).
  reflexivity.
Defined.

(** X7: with fewer than two positional arguments the one argument that
    may be there is never read: two such invocations under the same
    program name are the same program, with the same run in every process
    state. *)
Theorem usage_ignores_argument (argv argv' : list string) (w : World) :
  argc argv < 3 ->
  argc argv' < 3 ->
  arg argv 0 = arg argv' 0 ->
  main argv = main argv' /\ run (main argv) w = run (main argv') w.
Proof.
  intros H H' E0.
  assert (E : main argv = main argv').
  { rewrite (main_usage argv H), (main_usage argv' H'), E0. reflexivity. }
  rewrite E. split; reflexivity.
Qed.

Lemma usage_ignores_argument_witness :
  (argc ["sleeper"; "-1"]%string < 3 /\ argc ["sleeper"%string] < 3) /\
  run (main ["sleeper"; "-1"]%string) demo_world =
  run (main ["sleeper"%string]) demo_world.
Proof.
  assert (Hw : argc ["sleeper"; "-1"]%string < 3 /\
               argc ["sleeper"%string] < 3).
  { split; reflexivity. }
  split; [exact Hw|].
  destruct Hw as (H & H').
  apply (usage_ignores_argument ["sleeper"; "-1"]%string ["sleeper"%string]
           demo_world H H' eq_refl).
Defined.
